(** * nl_energy_mon: the P1 telegram parser of [main.py]

    A shallow embedding of [parse_telegram], [parse_dt_to_utc] and of the
    loop body of [main], with the library functions they call (regular
    expressions, [float], [int], [str], [strptime], [strftime], the CRC)
    modelled on the inputs the parser gives them.

    Conventions.
    - A line is a [string]; the serial link carries the ASCII alphabet of
      the P1 telegram, on which [decode('utf-8')] is the identity.
    - The serial port is the list of lines still to come.  When the list
      runs out inside the [while True] loop the model answers [Starved]:
      the Python loop is still polling [readline].
    - A Python [float] is a binary64 value of [SpecFloat].
    - An aware [datetime] is its instant, in seconds since the epoch; a
      naive one is its wall-clock reading, as the same count taken as if
      the clock showed UTC. *)

From Stdlib Require Import ZArith NArith List Bool Ascii String Lia.
From Stdlib Require Import DecimalString DecimalFacts DecimalPos DecimalN DecimalZ HexString.
From Stdlib Require Import Floats.SpecFloat.
From stdpp Require Import gmap strings.

Local Open Scope string_scope.
Local Open Scope Z_scope.

(** ** Results of fallible Python code *)

Inductive exn : Type :=
| ValueError
| OverflowError
| IndexError
| RuntimeError.

Inductive res (A : Type) : Type :=
| OK (a : A)
| Raise (e : exn).
Arguments OK {A} a.
Arguments Raise {A} e.

(** Sequencing: the first exception raised ends the computation.  With
    these instances [x ← r; k] reads as in Python, statement after
    statement. *)
#[global] Instance res_ret : MRet res := fun A a => OK a.
#[global] Instance res_bind : MBind res := fun A B k r =>
  match r with
  | OK a => k a
  | Raise e => Raise e
  end.

(** ** Python strings *)

Module PyStr.

(** [str.isspace] on ASCII: TAB, LF, VT, FF, CR, FS, GS, RS, US, SP. *)
Definition is_space (c : ascii) : bool :=
  let n := Z.of_nat (nat_of_ascii c) in
  ((9 <=? n) && (n <=? 13)) || ((28 <=? n) && (n <=? 32)).

Definition is_digit (c : ascii) : bool :=
  let n := Z.of_nat (nat_of_ascii c) in
  (48 <=? n) && (n <=? 57).

Fixpoint lstrip (s : string) : string :=
  match s with
  | EmptyString => EmptyString
  | String c s' => if is_space c then lstrip s' else s
  end.

Fixpoint rstrip (s : string) : string :=
  match s with
  | EmptyString => EmptyString
  | String c s' =>
      match rstrip s' with
      | EmptyString => if is_space c then EmptyString else String c EmptyString
      | r => String c r
      end
  end.

(** [s.strip()] *)
Definition strip (s : string) : string := rstrip (lstrip s).

(** [s.startswith(p)] *)
Fixpoint startswith (s p : string) {struct p} : bool :=
  match p with
  | EmptyString => true
  | String a p' =>
      match s with
      | String b s' => Ascii.eqb a b && startswith s' p'
      | EmptyString => false
      end
  end.

(** [sep.join(l)] *)
Fixpoint join (sep : string) (l : list string) : string :=
  match l with
  | [] => EmptyString
  | [x] => x
  | x :: l' => x ++ sep ++ join sep l'
  end.

(** The longest prefix of [s] whose characters satisfy [p], and the rest. *)
Fixpoint span (p : ascii -> bool) (s : string) : string * string :=
  match s with
  | EmptyString => (EmptyString, EmptyString)
  | String c s' =>
      if p c then let '(a, b) := span p s' in (String c a, b)
      else (EmptyString, s)
  end.

(** [int(s)] for a string of decimal digits that is not empty, the
    only strings it is given. *)
Definition int_of_digits (s : string) : Z :=
  match NilEmpty.uint_of_string s with
  | Some d => Z.of_N (N.of_uint d)
  | None => 0
  end.

(** [str(n)] for an [int]. *)
Definition str_of_int (n : Z) : string := NilZero.string_of_int (Z.to_int n).

End PyStr.

(** ** Python floats: binary64 *)

Module PyFloat.

Definition prec : Z := 53.
Definition emax : Z := 1024.

Definition nan : spec_float := S754_nan.

(** The binary64 value nearest to [n / d] (ties to even), for [0 <= n]
    and [0 < d]: the quotient is cut below the last kept bit with its
    position relative to the next value, then rounded. *)
Definition of_ratio (n d : Z) : spec_float :=
  match n with
  | Z0 => S754_zero false
  | _ =>
      let '(q, e, l) := SFdiv_core_binary prec emax n 0 d 0 in
      binary_round_aux prec emax false q e l
  end.

(** [float(n)] for a non-negative [int]. *)
Definition of_int (n : Z) : spec_float := of_ratio n 1.

Definition is_dot (c : ascii) : bool := Ascii.eqb c ".".

(** [float(s)] on the strings the parser passes to it: the text of a
    group of digits and dots, or the default ['nan'].  The decimal [ip.fp] is the
    ratio of the integer written [ip fp] to [10 ^ length fp]; a string
    without a digit or with a second dot is a [ValueError]. *)
Definition of_str (s : string) : res spec_float :=
  if String.eqb s "nan" then OK nan
  else
    let '(ip, r) := PyStr.span PyStr.is_digit s in
    let fp_r :=
      match r with
      | String c r' => if is_dot c then Some (PyStr.span PyStr.is_digit r') else None
      | EmptyString => Some (EmptyString, EmptyString)
      end in
    match fp_r with
    | Some (fp, EmptyString) =>
        match (ip ++ fp)%string with
        | EmptyString => Raise ValueError
        | ds => OK (of_ratio (PyStr.int_of_digits ds) (10 ^ Z.of_nat (String.length fp)))
        end
    | _ => Raise ValueError
    end.

(** [int(x)] for a float: truncation towards zero; NaN is a
    [ValueError], an infinity an [OverflowError]. *)
Definition to_int (x : spec_float) : res Z :=
  match x with
  | S754_zero _ => OK 0
  | S754_finite s m e => OK (cond_Zopp s (Z.shiftl (Zpos m) e))
  | S754_infinity _ => Raise OverflowError
  | S754_nan => Raise ValueError
  end.

(** [a * b] *)
Definition mul (a b : spec_float) : spec_float := SFmul prec emax a b.

End PyFloat.

(** ** The two regular expressions *)

Module Re.

Definition expect (c : ascii) (s : string) : option string :=
  match s with
  | String c' s' => if Ascii.eqb c c' then Some s' else None
  | EmptyString => None
  end.

(** One or more digits: the whole run of digits, which must not be
    empty.  Every such run of [tel_id_re] is followed by a character that is not a digit
    or by the end of the pattern, so giving back digits never helps and
    the greedy choice is the match. *)
Definition digits1 (s : string) : option (string * string) :=
  match PyStr.span PyStr.is_digit s with
  | (EmptyString, _) => None
  | (d, r) => Some (d, r)
  end.

(** [tel_id_re] matched at the start of [s]: the five groups. *)
Definition tel_id_match (s : string) : option (list string) :=
  '(a, s) ← digits1 s; s ← expect "-" s;
  '(b, s) ← digits1 s; s ← expect ":" s;
  '(c, s) ← digits1 s; s ← expect "." s;
  '(d, s) ← digits1 s; s ← expect "." s;
  '(e, _) ← digits1 s;
  Some [a; b; c; d; e].

(** [tel_id_re.search(s).groups()]: the leftmost match. *)
Fixpoint tel_id_search (s : string) : option (list string) :=
  match tel_id_match s with
  | Some g => Some g
  | None =>
      match s with
      | EmptyString => None
      | String _ s' => tel_id_search s'
      end
  end.

(** The text matched, [drm4_id[0]]. *)
Definition tel_id_text (g : list string) : string :=
  match g with
  | [a; b; c; d; e] => a ++ "-" ++ b ++ ":" ++ c ++ "." ++ d ++ "." ++ e
  | _ => EmptyString
  end.

Definition is_num (c : ascii) : bool := PyStr.is_digit c || PyFloat.is_dot c.
Definition not_rparen (c : ascii) : bool := negb (Ascii.eqb c ")").

(** [tel_content_re_extra] matched right after an opening parenthesis.
    Group 1 is the run of digits and dots, which may be empty; the
    class of everything but a closing parenthesis then runs to the next
    closing parenthesis, which has to exist.  After it an opening
    parenthesis is taken when there is one, and group 2 is the run of
    digits and dots that follows; with no such run it takes no part. *)
Definition tel_content_after_lparen (s : string) : option (string * option string) :=
  let '(g1, r) := PyStr.span is_num s in
  let '(_, r) := PyStr.span not_rparen r in
  match r with
  | EmptyString => None
  | String _ r =>
      let r := match r with
               | String "(" r' => r'
               | _ => r
               end in
      match PyStr.span is_num r with
      | (EmptyString, _) => Some (g1, None)
      | (g2, _) => Some (g1, Some g2)
      end
  end.

(** [tel_content_re_extra.search(s)]: the leftmost opening parenthesis
    from which the pattern matches. *)
Fixpoint tel_content_search (s : string) : option (string * option string) :=
  match s with
  | EmptyString => None
  | String c s' =>
      if Ascii.eqb c "(" then
        match tel_content_after_lparen s' with
        | Some g => Some g
        | None => tel_content_search s'
        end
      else tel_content_search s'
  end.

End Re.

(** ** Dates and times *)

Module PyTime.

(** *** The proleptic Gregorian calendar *)

Definition is_leap (y : Z) : bool :=
  ((y mod 4 =? 0) && negb (y mod 100 =? 0)) || (y mod 400 =? 0).

Definition days_in_month (y m : Z) : Z :=
  if m =? 2 then (if is_leap y then 29 else 28)
  else if (m =? 4) || (m =? 6) || (m =? 9) || (m =? 11) then 30
  else 31.

(** Days of the year before the first of month [m]. *)
Definition days_before_month (y m : Z) : Z :=
  nth (Z.to_nat m) [0; 0; 31; 59; 90; 120; 151; 181; 212; 243; 273; 304; 334] 0
  + (if (2 <? m) && is_leap y then 1 else 0).

(** Days before the first of January of year [y], counted from the
    first of January of year 1. *)
Definition days_before_year (y : Z) : Z :=
  let p := y - 1 in p * 365 + p / 4 - p / 100 + p / 400.

(** Days from 1970-01-01 to the given date. *)
Definition days_from_civil (y m d : Z) : Z :=
  days_before_year y + days_before_month y m + d - 719163.

(** The date that lies [z] days after 1970-01-01. *)
Definition civil_from_days (z : Z) : Z * Z * Z :=
  let z := z + 719468 in
  let era := z / 146097 in
  let doe := z mod 146097 in
  let yoe := (doe - doe / 1460 + doe / 36524 - doe / 146096) / 365 in
  let doy := doe - (365 * yoe + yoe / 4 - yoe / 100) in
  let mp := (5 * doy + 2) / 153 in
  let d := doy - (153 * mp + 2) / 5 + 1 in
  let m := if mp <? 10 then mp + 3 else mp - 9 in
  (yoe + era * 400 + (if m <=? 2 then 1 else 0), m, d).

(** *** Naive datetimes *)

Record naive : Type := mk_naive {
  year : Z; month : Z; day : Z; hour : Z; minute : Z; second : Z }.

(** The constructor [datetime(y, m, d, hh, mi, ss)] with its range
    checks. *)
Definition datetime (y m d hh mi ss : Z) : res naive :=
  if (1 <=? y) && (y <=? 9999) && (1 <=? m) && (m <=? 12)
     && (1 <=? d) && (d <=? days_in_month y m)
     && (0 <=? hh) && (hh <=? 23) && (0 <=? mi) && (mi <=? 59)
     && (0 <=? ss) && (ss <=? 59)
  then OK (mk_naive y m d hh mi ss)
  else Raise ValueError.

(** The wall-clock reading as a count of seconds. *)
Definition wall_seconds (n : naive) : Z :=
  86400 * days_from_civil (year n) (month n) (day n)
  + 3600 * hour n + 60 * minute n + second n.

(** The UTC wall-clock reading of an instant. *)
Definition utc_fields (t : Z) : naive :=
  let '(y, m, d) := civil_from_days (t / 86400) in
  let s := t mod 86400 in
  mk_naive y m d (s / 3600) (s mod 3600 / 60) (s mod 60).

(** *** [strptime]

    [strptime] turns a format into a regular expression, one group per
    directive, and matches it at the start of the text; text left over
    after the match is an error.  The directives used here are
    alternatives of one or two (for the year, two or four) character
    classes, tried in the order written, with backtracking into an
    earlier directive when a later one fails. *)

Definition cls : Type := ascii -> bool.

Inductive item : Type :=
| Dir (alts : list (list cls))
| Lit (c : ascii).

Definition rng (lo hi : ascii) : cls := fun c =>
  (nat_of_ascii lo <=? nat_of_ascii c)%nat && (nat_of_ascii c <=? nat_of_ascii hi)%nat.
Definition chr (a : ascii) : cls := fun c => Ascii.eqb a c.
Definition dig : cls := rng "0" "9".

Definition dir_y : item := Dir [[dig; dig]].
Definition dir_Y : item := Dir [[dig; dig; dig; dig]].
Definition dir_m : item := Dir [[chr "1"; rng "0" "2"]; [chr "0"; rng "1" "9"]; [rng "1" "9"]].
Definition dir_d : item :=
  Dir [[chr "3"; rng "0" "1"]; [rng "1" "2"; dig]; [chr "0"; rng "1" "9"];
       [rng "1" "9"]; [chr " "; rng "1" "9"]].
Definition dir_H : item := Dir [[chr "2"; rng "0" "3"]; [rng "0" "1"; dig]; [dig]].
Definition dir_M : item := Dir [[rng "0" "5"; dig]; [dig]].
Definition dir_S : item := Dir [[chr "6"; rng "0" "1"]; [rng "0" "5"; dig]; [dig]].

(** One alternative at the start of [s]: the text matched and the rest. *)
Fixpoint match_alt (a : list cls) (s : string) : option (string * string) :=
  match a with
  | [] => Some (EmptyString, s)
  | p :: a' =>
      match s with
      | String c s' =>
          if p c then
            match match_alt a' s' with
            | Some (t, r) => Some (String c t, r)
            | None => None
            end
          else None
      | EmptyString => None
      end
  end.

(** The expression is compiled with [IGNORECASE]. *)
Definition lower (c : ascii) : ascii :=
  let n := nat_of_ascii c in
  if (65 <=? n)%nat && (n <=? 90)%nat then ascii_of_nat (n + 32) else c.

(** The items at the start of [s]: the groups and the rest.  An
    alternative is kept when the items after it match; otherwise the
    next alternative is tried. *)
Fixpoint match_items (fmt : list item) (s : string) : option (list string * string) :=
  match fmt with
  | [] => Some ([], s)
  | Lit c :: fmt' =>
      match s with
      | String c' s' =>
          if Ascii.eqb (lower c) (lower c') then match_items fmt' s' else None
      | EmptyString => None
      end
  | Dir alts :: fmt' =>
      (fix try (alts : list (list cls)) : option (list string * string) :=
         match alts with
         | [] => None
         | a :: alts' =>
             match match_alt a s with
             | Some (t, r) =>
                 match match_items fmt' r with
                 | Some (gs, r') => Some (t :: gs, r')
                 | None => try alts'
                 end
             | None => try alts'
             end
         end) alts
  end.

Definition strptime_groups (fmt : list item) (s : string) : res (list string) :=
  match match_items fmt s with
  | Some (gs, EmptyString) => OK gs
  | _ => Raise ValueError
  end.

(** [int] of a group; it skips the blank a day may start with. *)
Definition num (t : string) : Z := PyStr.int_of_digits (PyStr.lstrip t).

(** ['%y%m%d%H%M%S'] *)
Definition DRM4_DT_FMT : list item := [dir_y; dir_m; dir_d; dir_H; dir_M; dir_S].

(** ['%Y-%m-%dT%H:%M:%SZ'] *)
Definition INFLUX_DT_FMT : list item :=
  [dir_Y; Lit "-"; dir_m; Lit "-"; dir_d; Lit "T"; dir_H; Lit ":"; dir_M; Lit ":"; dir_S; Lit "Z"].

(** A two-digit year: 69 to 99 are 1969 to 1999, 0 to 68 are 2000 to
    2068. *)
Definition century (yy : Z) : Z := if yy <=? 68 then yy + 2000 else yy + 1900.

(** [datetime.strptime(s, DRM4_DT_FMT)] *)
Definition strptime_drm4 (s : string) : res naive :=
  gs ← strptime_groups DRM4_DT_FMT s;
  match gs with
  | [gy; gm; gd; gH; gM; gS] =>
      datetime (century (num gy)) (num gm) (num gd) (num gH) (num gM) (num gS)
  | _ => Raise ValueError
  end.

(** [datetime.strptime(s, INFLUX_DT_FMT)] *)
Definition strptime_influx (s : string) : res naive :=
  gs ← strptime_groups INFLUX_DT_FMT s;
  match gs with
  | [gy; gm; gd; gH; gM; gS] =>
      datetime (num gy) (num gm) (num gd) (num gH) (num gM) (num gS)
  | _ => Raise ValueError
  end.

(** *** [strftime] *)

Definition digit_char (k : Z) : ascii := ascii_of_nat (48 + Z.to_nat k).

Definition pad2 (n : Z) : string :=
  String (digit_char (n / 10 mod 10)) (String (digit_char (n mod 10)) EmptyString).

(** The year on four digits; years below 1000 do not reach it. *)
Definition pad4 (n : Z) : string :=
  String (digit_char (n / 1000 mod 10)) (String (digit_char (n / 100 mod 10)) (pad2 n)).

(** [dt.strftime(INFLUX_DT_FMT)] for the aware UTC datetime of instant [t]. *)
Definition strftime_influx (t : Z) : string :=
  let n := utc_fields t in
  (pad4 (year n) ++ "-" ++ pad2 (month n) ++ "-" ++ pad2 (day n) ++ "T"
   ++ pad2 (hour n) ++ ":" ++ pad2 (minute n) ++ ":" ++ pad2 (second n) ++ "Z")%string.

(** [TZ_INFLUX.localize(datetime.strptime(s, INFLUX_DT_FMT))]: the
    reading is taken as UTC. *)
Definition influx_instant (s : string) : res Z :=
  n ← strptime_influx s; OK (wall_seconds n).

(** *** Time zones

    A zone is the offset from UTC, in seconds, that [localize] gives a
    wall-clock reading ([is_dst=False]: standard time where the reading
    is ambiguous or does not exist). *)

Definition tzinfo : Type := naive -> Z.

(** The last Sunday on or before the given date, in days from
    1970-01-01, which was a Thursday. *)
Definition last_sunday (y m d : Z) : Z :=
  let z := days_from_civil y m d in z - (z + 4) mod 7.

(** Central European time under the rule in force since 1996: summer
    time from the last Sunday of March, 01:00 UTC, to the last Sunday of
    October, 01:00 UTC.  Readings from 03:00 on the first day up to
    02:00 on the last are summer time without doubt; the skipped hour
    and the repeated hour fall to standard time. *)
Definition Europe_Amsterdam : tzinfo := fun n =>
  let t := wall_seconds n in
  let y := year n in
  if (86400 * last_sunday y 3 31 + 3 * 3600 <=? t)
     && (t <? 86400 * last_sunday y 10 31 + 2 * 3600)
  then 7200 else 3600.

(** [tz.localize(n).astimezone(pytz.utc)]: the instant of the reading.
    An offset of a day or more is refused by [datetime]. *)
Definition localize_to_utc (tz : tzinfo) (n : naive) : res Z :=
  let off := tz n in
  if (-86400 <? off) && (off <? 86400) then OK (wall_seconds n - off)
  else Raise ValueError.

End PyTime.

(** ** The checksum *)

Module Crc.

(** [crcmod.mkCrcFun(0x18005, rev=False)]: sixteen bits, most
    significant bit first, the register started with all bits set (the
    default [initCrc]) and nothing added at the end. *)
Definition shift_bit (crc : Z) : Z :=
  if Z.testbit crc 15
  then Z.land (Z.lxor (Z.shiftl crc 1) 0x18005) 0xFFFF
  else Z.land (Z.shiftl crc 1) 0xFFFF.

Definition add_byte (crc : Z) (b : ascii) : Z :=
  Nat.iter 8 shift_bit (Z.lxor crc (Z.shiftl (Z.of_nat (nat_of_ascii b)) 8)).

Fixpoint update (crc : Z) (data : string) : Z :=
  match data with
  | EmptyString => crc
  | String b data' => update (add_byte crc b) data'
  end.

Definition drm4_crc (data : string) : Z := update 0xFFFF data.

(** [hex(n)] *)
Definition hex (n : Z) : string := HexString.of_Z n.

End Crc.

(** ** The field catalog *)

Inductive Drm4 : Type :=
| VERSION
| TIMESTAMP_ELECTR
| EQ_ID
| READ_DEL_T1_KWH
| READ_DEL_T2_KWH
| TARIFF_INDICATOR
| POWER_DEL_KW
| CURRENT_A
| GAS_T_VOLUME_M3
| UNUSED_01 | UNUSED_02 | UNUSED_03 | UNUSED_04 | UNUSED_05 | UNUSED_06 | UNUSED_07
| UNUSED_08 | UNUSED_09 | UNUSED_10 | UNUSED_11 | UNUSED_12 | UNUSED_13 | UNUSED_14.

Definition obis : Type := (Z * Z * Z * Z * Z)%type.

Definition obis_eqb (a b : obis) : bool :=
  let '(a1, a2, a3, a4, a5) := a in
  let '(b1, b2, b3, b4, b5) := b in
  (a1 =? b1) && (a2 =? b2) && (a3 =? b3) && (a4 =? b4) && (a5 =? b5).

(** The members of the enumeration with their values, in the order of the
    class body. *)
Definition Drm4_members : list (Drm4 * obis) :=
  [ (VERSION, (1, 3, 0, 2, 8));
    (TIMESTAMP_ELECTR, (0, 0, 1, 0, 0));
    (EQ_ID, (0, 0, 96, 1, 1));
    (READ_DEL_T1_KWH, (1, 0, 1, 8, 1));
    (READ_DEL_T2_KWH, (1, 0, 1, 8, 2));
    (TARIFF_INDICATOR, (0, 0, 96, 14, 0));
    (POWER_DEL_KW, (1, 0, 21, 7, 0));
    (CURRENT_A, (1, 0, 31, 7, 0));
    (GAS_T_VOLUME_M3, (0, 1, 24, 2, 1));
    (UNUSED_01, (1, 0, 2, 8, 1));
    (UNUSED_02, (1, 0, 2, 8, 2));
    (UNUSED_03, (1, 0, 1, 7, 0));
    (UNUSED_04, (1, 0, 2, 7, 0));
    (UNUSED_05, (0, 0, 96, 7, 9));
    (UNUSED_06, (0, 0, 96, 7, 21));
    (UNUSED_07, (1, 0, 99, 97, 0));
    (UNUSED_08, (1, 0, 32, 32, 0));
    (UNUSED_09, (1, 0, 32, 36, 0));
    (UNUSED_10, (0, 0, 96, 13, 1));
    (UNUSED_11, (0, 0, 96, 13, 0));
    (UNUSED_12, (1, 0, 22, 7, 0));
    (UNUSED_13, (0, 1, 24, 1, 0));
    (UNUSED_14, (0, 1, 96, 1, 0)) ].

(** [Drm4(v)]: the member whose value is [v]; [None] is the [ValueError]
    of the enumeration. *)
Definition Drm4_of_value (v : obis) : option Drm4 :=
  fst <$> find (fun '(_, w) => obis_eqb w v) Drm4_members.


(** ** Values and output of the parser *)

Inductive pyvalue : Type :=
| VFloat (x : spec_float)
| VInt (n : Z)
| VStr (s : string)
| VDatetime (t : Z).

(** What [parse_telegram] prints, one constructor per [print], with the
    values put into the text. *)
Inductive event : Type :=
| IgnoredWhileWaiting (line : string)
| EndOfTelegram (crc_calc : string) (line : string)
| UnknownId (line : string)
| NonImplemented (id : string) (line : string)
| ReadInfo (field : Drm4) (line : string)
| StaleTelegram (dt last : Z).

(** The local variables of [parse_telegram] and what it has printed. *)
Record state : Type := mk_state {
  t_content : list string;
  telegram_info : gmap string pyvalue;
  awaiting_start : bool;
  stdout : list event }.

Definition print (e : event) (st : state) : state :=
  mk_state (t_content st) (telegram_info st) (awaiting_start st) (stdout st ++ [e])%list.

Definition append_content (line : string) (st : state) : state :=
  mk_state (t_content st ++ [line])%list (telegram_info st) (awaiting_start st) (stdout st).

Definition started (st : state) : state :=
  mk_state (t_content st) (telegram_info st) false (stdout st).

(** [telegram_info[k] = v] *)
Definition setitem (k : string) (v : pyvalue) (st : state) : state :=
  mk_state (t_content st) (<[k := v]> (telegram_info st)) (awaiting_start st) (stdout st).

(** How one pass through the body of the loop ends. *)
Inductive flow : Type :=
| Continue (st : state)
| Break (ret : option (gmap string pyvalue)) (st : state)
| Throw (e : exn) (st : state).

(** How a call ends. *)
Inductive outcome : Type :=
| Returned (ret : option (gmap string pyvalue))
| Raised (e : exn)
| Starved.

Definition DRM4_LINE_SEP : string := String (ascii_of_nat 13) (String (ascii_of_nat 10) EmptyString).

(** ** Classifying a line and extracting its values *)

(** [tuple(int(x) for x in drm4_id.groups())] *)
Definition obis_of_groups (g : list string) : option obis :=
  match PyStr.int_of_digits <$> g with
  | [a; b; c; d; e] => Some (a, b, c, d, e)
  | _ => None
  end.

(** From the groups of [tel_content_re_extra] to [value, extra]: the
    groups with ['nan'] for one that took no part, the empty ones
    dropped, each turned into a float; a list of fewer than two is
    completed with NaN in front. *)
Definition convert (g1 : string) (g2 : option string) : res (spec_float * spec_float) :=
  converted ← mapM PyFloat.of_str
                (List.filter (fun x => negb (String.eqb x "")) [g1; default "nan" g2]);
  converted ← (if (length converted <? 2)%nat
               then match converted with
                    | x :: _ => OK [PyFloat.nan; x]
                    | [] => Raise IndexError
                    end
               else OK converted);
  match converted with
  | [value; extra] => OK (value, extra)
  | _ => Raise ValueError
  end.

(** What the loop learns from a body line before it looks at the field. *)
Inductive decoded : Type :=
| NoId
| NotInCatalog (id : string)
| NoContent (field : Drm4)
| BadNumber (field : Drm4) (e : exn)
| Decoded (field : Drm4) (value extra : spec_float).

Definition decode_line (line : string) : decoded :=
  match Re.tel_id_search line with
  | None => NoId
  | Some drm4_id =>
      match obis_of_groups drm4_id ≫= Drm4_of_value with
      | None => NotInCatalog (Re.tel_id_text drm4_id)
      | Some field =>
          match Re.tel_content_search line with
          | None => NoContent field
          | Some (g1, g2) =>
              match convert g1 g2 with
              | OK (value, extra) => Decoded field value extra
              | Raise e => BadNumber field e
              end
          end
      end
  end.

(** ** The parser *)

Section Parser.

(** [pytz.timezone("Europe/Amsterdam")]: the table is pytz's, so the
    zone is a parameter here; [PyTime.Europe_Amsterdam] is the instance
    used on concrete telegrams. *)
Variable TZ_DRM4 : PyTime.tzinfo.

Definition parse_dt_to_utc (dt_naive_f : spec_float) : res Z :=
  n ← PyFloat.to_int dt_naive_f;
  dt_naive ← PyTime.strptime_drm4 (PyStr.str_of_int n);
  PyTime.localize_to_utc TZ_DRM4 dt_naive.

Section Body.

Variables last_timestamp_electr last_timestamp_gas : option Z.

(** [last and dt <= last] *)
Definition not_after (dt : Z) (last : option Z) : bool :=
  match last with
  | Some l => dt <=? l
  | None => false
  end.

(** The chain of tests on [field]. *)
Definition store_field (field : Drm4) (value extra : spec_float) (st : state) : flow :=
  match field with
  | TIMESTAMP_ELECTR =>
      match parse_dt_to_utc value with
      | Raise e => Throw e st
      | OK dt =>
          if not_after dt last_timestamp_electr
          then Break None (print (StaleTelegram dt (default 0 last_timestamp_electr)) st)
          else Continue (setitem "dt_electricity" (VDatetime dt) st)
      end
  | READ_DEL_T1_KWH => Continue (setitem "energy_t1" (VFloat value) st)
  | READ_DEL_T2_KWH => Continue (setitem "energy_t2" (VFloat value) st)
  | TARIFF_INDICATOR =>
      match PyFloat.to_int value with
      | Raise e => Throw e st
      | OK n => Continue (setitem "tariff_indicator" (VInt n) st)
      end
  | POWER_DEL_KW =>
      Continue (setitem "power_delivered_w" (VFloat (PyFloat.mul (PyFloat.of_int 1000) value)) st)
  | CURRENT_A => Continue (setitem "current_delivered" (VFloat value) st)
  | GAS_T_VOLUME_M3 =>
      match parse_dt_to_utc value with
      | Raise e => Throw e st
      | OK dt =>
          if not_after dt last_timestamp_gas then Continue st
          else Continue (setitem "gas_dt" (VDatetime dt)
                          (setitem "gas_time" (VStr (PyTime.strftime_influx dt))
                             (setitem "gas" (VFloat extra) st)))
      end
  | _ => Continue st
  end.

(** One pass through the body of [while True], on the line read. *)
Definition loop_body (raw : string) (st : state) : flow :=
  let line := PyStr.strip raw in
  let st := append_content line st in
  if String.eqb line "" then Continue st
  else if awaiting_start st then
    if PyStr.startswith line "/" then Continue (started st)
    else Continue (print (IgnoredWhileWaiting line) st)
  else if PyStr.startswith line "!" then
    let st := append_content "!" st in
    let data := PyStr.join DRM4_LINE_SEP (t_content st) in
    let crc_calc := Crc.hex (Crc.drm4_crc data) in
    Break (Some (telegram_info st)) (print (EndOfTelegram crc_calc line) st)
  else
    match decode_line line with
    | NoId => Continue (print (UnknownId line) st)
    | NotInCatalog id => Continue (print (NonImplemented id line) st)
    | NoContent field => Continue (print (ReadInfo field line) st)
    | BadNumber _ e => Throw e st
    | Decoded field value extra => store_field field value extra st
    end.

(** The loop over the lines the port delivers. *)
Fixpoint loop (ser : list string) (st : state) : outcome * state * list string :=
  match ser with
  | [] => (Starved, st, [])
  | raw :: ser' =>
      match loop_body raw st with
      | Continue st' => loop ser' st'
      | Break ret st' => (Returned ret, st', ser')
      | Throw e st' => (Raised e, st', ser')
      end
  end.

End Body.

Definition init_state : state := mk_state [] ∅ true [].

(** [parse_telegram(ser, last_timestamp_electr, last_timestamp_gas)]:
    how the call ends, the locals at that point, and the lines not read. *)
Definition parse_telegram (ser : list string) (last_timestamp_electr last_timestamp_gas : option Z)
  : outcome * state * list string :=
  loop last_timestamp_electr last_timestamp_gas ser init_state.



End Parser.

(** ** The caller *)




(** ** Notions used to state the properties *)





(** The telegram buffer as the specification describes it: the lines from
    the first one that starts with the start marker to the first one after
    it that starts with the end marker, blank lines left out, and a final
    line holding the end marker alone. *)
Fixpoint spec_buffer_body (lines : list string) : list string :=
  match lines with
  | [] => []
  | l :: lines' =>
      if String.eqb l "" then spec_buffer_body lines'
      else if PyStr.startswith l "!" then [l; "!"]
      else l :: spec_buffer_body lines'
  end.

Fixpoint spec_buffer (lines : list string) : list string :=
  match lines with
  | [] => []
  | l :: lines' =>
      if PyStr.startswith l "/" then l :: spec_buffer_body lines'
      else spec_buffer lines'
  end.




(** ** Relations between runs and invariants of the loop *)

(** ** How the loop treats its lines *)

Definition flow_rel (Rret : option (gmap string pyvalue) -> option (gmap string pyvalue) -> Prop)
  (Rst : state -> state -> Prop) (f1 f2 : flow) : Prop :=
  match f1, f2 with
  | Continue a, Continue b => Rst a b
  | Break r a, Break r' b => Rret r r' /\ Rst a b
  | Throw e a, Throw e' b => e = e' /\ Rst a b
  | _, _ => False
  end.

(** The variables of the loop that decide what it does next. *)
Definition same_vars (st1 st2 : state) : Prop :=
  telegram_info st1 = telegram_info st2 /\ awaiting_start st1 = awaiting_start st2.


(** ** The gas channel *)




(** ** The catalog *)




(** The instant 2022-12-26T11:00:00Z. *)
Definition gas_example_instant : Z := 1672052400.




(** ** Formatting and parsing timestamps *)

Module TimeText.

Import PyTime.

(** The alternative [strptime] settles on for a text that one of the
    alternatives matches in full, no earlier one matching any of it. *)
Fixpoint picks (alts : list (list cls)) (txt : string) : bool :=
  match alts with
  | [] => false
  | a :: alts' =>
      match match_alt a txt with
      | Some (_, r) => String.eqb r ""
      | None => (length a <=? String.length txt)%nat && picks alts' txt
      end
  end.

Definition picks_item (it : item) (txt : string) : bool :=
  match it with
  | Dir alts => picks alts txt
  | Lit _ => false
  end.

(** A directive reads the text written for the value [v] and gets [v]. *)
Definition reads (it : item) (pad : Z -> string) (v : Z) : bool :=
  picks_item it (pad v) && (num (pad v) =? v).

(** [P] on the [2 ^ k] integers from [lo]. *)
Fixpoint forall_range (P : Z -> bool) (lo : Z) (k : nat) : bool :=
  match k with
  | O => P lo
  | S k' => forall_range P lo k' && forall_range P (lo + 2 ^ Z.of_nat k') k'
  end.

(** The integers from [lo], [n] of them. *)
Definition zrange (lo : Z) (n : nat) : list Z :=
  List.map (fun i => lo + Z.of_nat i) (seq 0 n).

(** The date of day [z] is a date and counts back to [z]. *)
Definition civil_ok (ylo yhi : Z) (z : Z) : bool :=
  let '(y, m, d) := civil_from_days z in
  (ylo <=? y) && (y <=? yhi) && (1 <=? m) && (m <=? 12)
  && (1 <=? d) && (d <=? days_in_month y m) && (days_from_civil y m d =? z).

(** The days of a month of year [y] lie between two given days. *)
Definition month_within (lo hi : Z) (ym : Z) : bool :=
  let y := ym / 12 in
  let m := ym mod 12 + 1 in
  (lo <=? days_from_civil y m 1) && (days_from_civil y m 31 <=? hi).

(** The days the decoder can name lie within these [2 ^ 16] days,
    which begin in 1968 and end in 2148. *)
Definition day_lo : Z := -366.
Definition day_hi : Z := day_lo + 2 ^ 16 - 1.

End TimeText.

(** ** A telegram to run the parser on *)

(** A line of noise, the start marker, the blank line that follows it on
    the wire, body lines of every kind, the end marker, and a line left
    on the port. *)
Definition example_telegram : list string :=
  [ "noise";
    "/ISK5\2M550T-1012";
    "";
    "1-3:0.2.8(50)";
    "0-0:1.0.0(221226120001W)";
    "1-0:1.8.1(001234.567*kWh)";
    "0-0:96.14.0(0002)";
    "1-0:21.7.0(00.424*kW)";
    "1-0:31.7.0(002*A)";
    "0-1:24.2.1(221226120000W)(00123.456*m3)";
    "1-0:99.97.0(2)(0-0:96.7.19)(1)";
    "9-9:9.9.9(1)";
    "no identifier here";
    "!ABCD";
    "/next" ].

(** What a call returns, or the empty record. *)
Definition returned_record (run : outcome * state * list string) : gmap string pyvalue :=
  match run.1.1 with
  | Returned (Some r) => r
  | _ => ∅
  end.

(** * Properties *)


Lemma startswith_nonempty (s p : string) :
  PyStr.startswith s p = true -> p <> EmptyString -> String.eqb s "" = false.
Proof.
  destruct s as [|c s]; [|reflexivity].
  destruct p as [|c' p]; [congruence|]. discriminate.
Qed.

Lemma strip_end_marker (h : string) :
  PyStr.startswith (PyStr.strip (String "!" h)) "!" = true.
Proof.
  unfold PyStr.strip. simpl PyStr.lstrip.
  change (PyStr.is_space "!") with false. cbv iota.
  simpl PyStr.rstrip. change (PyStr.is_space "!") with false.
  destruct (PyStr.rstrip h); reflexivity.
Qed.

Section LoopFacts.

Variable TZ_DRM4 : PyTime.tzinfo.
Variables last_electr last_gas : option Z.

Lemma loop_body_blank raw st :
  PyStr.strip raw = "" -> (loop_body TZ_DRM4 last_electr last_gas) raw st = Continue (append_content "" st).
Proof. intros H. unfold loop_body. rewrite H. reflexivity. Qed.

Lemma loop_body_end raw st :
  awaiting_start st = false ->
  PyStr.startswith (PyStr.strip raw) "!" = true ->
  (loop_body TZ_DRM4 last_electr last_gas) raw st =
    let st' := append_content "!" (append_content (PyStr.strip raw) st) in
    Break (Some (telegram_info st))
      (print (EndOfTelegram (Crc.hex (Crc.drm4_crc (PyStr.join DRM4_LINE_SEP (t_content st'))))
                (PyStr.strip raw)) st').
Proof.
  intros Ha Hs. unfold loop_body.
  rewrite (startswith_nonempty _ _ Hs) by discriminate.
  cbn [awaiting_start append_content]. rewrite Ha, Hs. reflexivity.
Qed.

Lemma loop_body_field raw st :
  awaiting_start st = false ->
  PyStr.startswith (PyStr.strip raw) "!" = false ->
  forall field value extra,
  decode_line (PyStr.strip raw) = Decoded field value extra ->
  (loop_body TZ_DRM4 last_electr last_gas) raw st =
    store_field TZ_DRM4 last_electr last_gas field value extra
      (append_content (PyStr.strip raw) st).
Proof.
  intros Ha Hs field value extra Hd. unfold loop_body.
  destruct (String.eqb (PyStr.strip raw) "") eqn:He.
  - apply String.eqb_eq in He. rewrite He in Hd. discriminate.
  - cbn [awaiting_start append_content]. rewrite Ha, Hs, Hd. reflexivity.
Qed.

Lemma loop_app pre post st :
  (loop TZ_DRM4 last_electr last_gas) (pre ++ post)%list st =
    match (loop TZ_DRM4 last_electr last_gas) pre st with
    | (Starved, st', _) => (loop TZ_DRM4 last_electr last_gas) post st'
    | (o, st', rest) => (o, st', (rest ++ post)%list)
    end.
Proof.
  revert st. induction pre as [|raw pre IH]; intros st; [reflexivity|].
  cbn [app loop]. destruct ((loop_body TZ_DRM4 last_electr last_gas) raw st); auto.
Qed.

(** The lines read are the input without the lines left. *)
Lemma loop_unread ser st o st' rest :
  (loop TZ_DRM4 last_electr last_gas) ser st = (o, st', rest) -> exists read, ser = (read ++ rest)%list.
Proof.
  revert st. induction ser as [|raw ser IH]; intros st H.
  - inversion H; subst. by exists [].
  - cbn [loop] in H. destruct ((loop_body TZ_DRM4 last_electr last_gas) raw st).
    + destruct (IH _ H) as [read ->]. by exists (raw :: read).
    + inversion H; subst. by exists [raw].
    + inversion H; subst. by exists [raw].
Qed.

(** What one pass does to the buffer: the stripped line is appended
    whatever the line is, and the end marker adds a line of its own. *)
Lemma loop_body_content raw st :
  match (loop_body TZ_DRM4 last_electr last_gas) raw st with
  | Break (Some r) st' =>
      r = telegram_info st
      /\ t_content st' = (t_content st ++ [PyStr.strip raw; "!"])%list
      /\ PyStr.startswith (PyStr.strip raw) "!" = true
      /\ stdout st' =
           (stdout st ++
              [EndOfTelegram
                 (Crc.hex (Crc.drm4_crc (PyStr.join DRM4_LINE_SEP (t_content st'))))
                 (PyStr.strip raw)])%list
  | Continue st' | Break None st' | Throw _ st' =>
      t_content st' = (t_content st ++ [PyStr.strip raw])%list
  end.
Proof.
  unfold loop_body.
  destruct (String.eqb (PyStr.strip raw) ""); [reflexivity|].
  cbn [awaiting_start append_content].
  destruct (awaiting_start st).
  { destruct (PyStr.startswith (PyStr.strip raw) "/"); reflexivity. }
  destruct (PyStr.startswith (PyStr.strip raw) "!") eqn:Hs.
  { cbn. rewrite <- app_assoc. auto. }
  destruct (decode_line (PyStr.strip raw)) as [|id|f|f e|f value extra];
    try reflexivity.
  unfold store_field.
  destruct f; try reflexivity;
    try (destruct (parse_dt_to_utc TZ_DRM4 value); [|reflexivity]);
    try (destruct (PyFloat.to_int value); reflexivity);
    match goal with
    | |- context [not_after ?a ?b] => destruct (not_after a b); reflexivity
    end.
Qed.

End LoopFacts.

(** Goals on [same_vars] after a step that touches neither variable. *)
Ltac vars := cbv [flow_rel same_vars]; cbn; solve [intuition congruence].

Section Framing.

Variable TZ_DRM4 : PyTime.tzinfo.

Lemma store_field_ext le lg field value extra st1 st2 :
  same_vars st1 st2 ->
  flow_rel eq same_vars
    (store_field TZ_DRM4 le lg field value extra st1)
    (store_field TZ_DRM4 le lg field value extra st2).
Proof.
  intros [Hi Ha]. unfold store_field, same_vars, setitem.
  destruct field; cbn; rewrite ?Hi; try vars.
  all: try (destruct (parse_dt_to_utc TZ_DRM4 value); [|vars]).
  all: try (destruct (PyFloat.to_int value); vars).
  all: try match goal with
    | |- context [not_after ?a ?b] => destruct (not_after a b); vars
    end.
Qed.

Lemma loop_body_ext le lg raw st1 st2 :
  same_vars st1 st2 ->
  flow_rel eq same_vars ((loop_body TZ_DRM4) le lg raw st1) ((loop_body TZ_DRM4) le lg raw st2).
Proof.
  intros [Hi Ha]. unfold loop_body.
  destruct (String.eqb (PyStr.strip raw) ""); [vars|].
  cbn [awaiting_start append_content]. rewrite Ha.
  destruct (awaiting_start st2) eqn:Ha2.
  { destruct (PyStr.startswith (PyStr.strip raw) "/"); vars. }
  destruct (PyStr.startswith (PyStr.strip raw) "!"); [vars|].
  destruct (decode_line (PyStr.strip raw)); try vars.
  apply store_field_ext. vars.
Qed.

Lemma loop_ext le lg ser st1 st2 :
  same_vars st1 st2 ->
  ((loop TZ_DRM4) le lg ser st1).1.1 = ((loop TZ_DRM4) le lg ser st2).1.1
  /\ ((loop TZ_DRM4) le lg ser st1).2 = ((loop TZ_DRM4) le lg ser st2).2.
Proof.
  revert st1 st2. induction ser as [|raw ser IH]; intros st1 st2 H; [by split|].
  cbn [loop]. pose proof (loop_body_ext le lg raw st1 st2 H) as Hb.
  destruct ((loop_body TZ_DRM4) le lg raw st1), ((loop_body TZ_DRM4) le lg raw st2); cbn in Hb; try done.
  - by apply IH.
  - destruct Hb as [-> _]. by split.
  - destruct Hb as [-> _]. by split.
Qed.

Lemma loop_content le lg ser st r st' rest :
  (loop TZ_DRM4) le lg ser st = (Returned (Some r), st', rest) ->
  exists read raw out,
    ser = (read ++ raw :: rest)%list
    /\ PyStr.startswith (PyStr.strip raw) "!" = true
    /\ t_content st' = (t_content st ++ (PyStr.strip <$> read) ++ [PyStr.strip raw; "!"])%list
    /\ stdout st' =
         (out ++ [EndOfTelegram
                    (Crc.hex (Crc.drm4_crc (PyStr.join DRM4_LINE_SEP (t_content st'))))
                    (PyStr.strip raw)])%list.
Proof.
  revert st. induction ser as [|raw ser IH]; intros st H; [discriminate|].
  cbn [loop] in H. pose proof (loop_body_content TZ_DRM4 le lg raw st) as Hb.
  destruct ((loop_body TZ_DRM4) le lg raw st) as [st1|ret st1|e st1].
  - destruct (IH _ H) as (read & raw' & out & -> & Hs & Hc & Ho).
    exists (raw :: read), raw', out. repeat split; auto.
    rewrite Hc, Hb, <- app_assoc. reflexivity.
  - inversion H; subst. destruct Hb as (_ & Hc & Hs & Ho).
    exists [], raw, (stdout st). repeat split; auto.
  - discriminate.
Qed.

(** C4 (as amended).  When a call returns a record, the bytes the
    checksum is computed over are every line read by the call, stripped,
    in the order read, blank lines and lines read before the start
    marker included, up to and including the end-marker line, followed
    by a line holding the end marker alone, joined with CR LF. *)
Theorem checksum_covers_every_line_read
  (ser : list string) (le lg : option Z) (r : gmap string pyvalue)
  (st : state) (rest : list string) :
  parse_telegram TZ_DRM4 ser le lg = (Returned (Some r), st, rest) ->
  exists read raw out,
    ser = (read ++ raw :: rest)%list
    /\ PyStr.startswith (PyStr.strip raw) "!" = true
    /\ t_content st = ((PyStr.strip <$> read) ++ [PyStr.strip raw; "!"])%list
    /\ stdout st =
         (out ++ [EndOfTelegram
                    (Crc.hex (Crc.drm4_crc
                       (PyStr.join DRM4_LINE_SEP
                          ((PyStr.strip <$> read) ++ [PyStr.strip raw; "!"])%list)))
                    (PyStr.strip raw)])%list.
Proof.
  intros H. destruct (loop_content _ _ _ _ _ _ _ H) as (read & raw & out & E & Hs & Hc & Ho).
  exists read, raw, out. cbn in Hc. rewrite <- Hc. auto.
Qed.


Lemma end_marker_not_start (line : string) :
  PyStr.startswith line "!" = true -> PyStr.startswith line "/" = false.
Proof.
  destruct line as [|c line]; [discriminate|].
  cbn [PyStr.startswith].
  destruct (Ascii.eqb_spec "!" c) as [<-|]; [reflexivity|discriminate].
Qed.

(** C2.  Two telegrams that differ only in what follows the end marker
    on its line end in the same way: the same record, the same discard,
    the same exception.  When the end marker is reached in the body the
    record accumulated so far is returned whatever the digits are, and
    the checksum computed over the buffer is printed next to the line. *)
Theorem checksum_digits_do_not_gate
  (pre rest : list string) (h1 h2 : string) (le lg : option Z) :
  (parse_telegram TZ_DRM4 (pre ++ String "!" h1 :: rest)%list le lg).1.1
  = (parse_telegram TZ_DRM4 (pre ++ String "!" h2 :: rest)%list le lg).1.1
  /\ forall st,
      (loop TZ_DRM4) le lg pre init_state = (Starved, st, []) ->
      awaiting_start st = false ->
      exists st',
        parse_telegram TZ_DRM4 (pre ++ String "!" h1 :: rest)%list le lg
        = (Returned (Some (telegram_info st)), st', rest)
        /\ stdout st' =
             (stdout st ++
                [EndOfTelegram
                   (Crc.hex (Crc.drm4_crc (PyStr.join DRM4_LINE_SEP (t_content st'))))
                   (PyStr.strip (String "!" h1))])%list.
Proof.
  unfold parse_telegram. split.
  - rewrite !loop_app.
    destruct ((loop TZ_DRM4) le lg pre init_state) as [[o st] rest'].
    destruct o; try reflexivity.
    cbn [loop].
    destruct (awaiting_start st) eqn:Ha.
    + unfold loop_body.
      rewrite !(startswith_nonempty _ _ (strip_end_marker _)) by discriminate.
      cbn [awaiting_start append_content]. rewrite Ha.
      rewrite !(end_marker_not_start _ (strip_end_marker _)).
      apply loop_ext. by split.
    + rewrite !(loop_body_end _ _ _ _ _ Ha (strip_end_marker _)). reflexivity.
  - intros st Hpre Ha. rewrite loop_app, Hpre. cbn [loop].
    rewrite (loop_body_end _ _ _ _ _ Ha (strip_end_marker _)).
    eexists. split; reflexivity.
Qed.

End Framing.







Section GasChannel.

Variable TZ_DRM4 : PyTime.tzinfo.
Variable le : option Z.
Variable g : Z.



End GasChannel.

Section GasTheorem.

Variable TZ_DRM4 : PyTime.tzinfo.





End GasTheorem.







Section Catalog.

Variable TZ_DRM4 : PyTime.tzinfo.
Variables le lg : option Z.





End Catalog.


(** ** Values *)




Section Literals.

Variable TZ_DRM4 : PyTime.tzinfo.

(** C6.  In the body of a telegram the line [1-0:21.7.0(00.424*kW)]
    stores 424.0 under [power_delivered_w]: the text before the unit is
    read as the float nearest to 0.424, and a thousand times that float
    is the float 424. *)
Theorem power_line_decodes (le lg : option Z) (st : state) :
  awaiting_start st = false ->
  loop_body TZ_DRM4 le lg "1-0:21.7.0(00.424*kW)" st
  = Continue (setitem "power_delivered_w" (VFloat (PyFloat.of_int 424))
                (append_content "1-0:21.7.0(00.424*kW)" st))
  /\ decode_line "1-0:21.7.0(00.424*kW)"
     = Decoded POWER_DEL_KW (PyFloat.of_ratio 424 1000) PyFloat.nan
  /\ PyFloat.mul (PyFloat.of_int 1000) (PyFloat.of_ratio 424 1000) = PyFloat.of_int 424
  /\ PyFloat.of_int 424 = S754_finite false (53 * 2 ^ 47) (-44).
Proof.
  intros Ha.
  assert (Hd : decode_line (PyStr.strip "1-0:21.7.0(00.424*kW)")
               = Decoded POWER_DEL_KW (PyFloat.of_ratio 424 1000) PyFloat.nan)
    by (vm_compute; reflexivity).
  repeat split; try (vm_compute; reflexivity).
  rewrite (loop_body_field TZ_DRM4 le lg "1-0:21.7.0(00.424*kW)" st Ha eq_refl _ _ _ Hd).
  unfold store_field.
  replace (PyFloat.mul (PyFloat.of_int 1000) (PyFloat.of_ratio 424 1000))
    with (PyFloat.of_int 424) by (vm_compute; reflexivity).
  reflexivity.
Qed.

End Literals.




(** ** Integers through floats *)

Module FloatExact.

Import PyFloat.









End FloatExact.



Module TimeTextFacts.

Import PyTime TimeText.

Lemma zrange_forall (P : Z -> bool) (lo : Z) (n : nat) :
  forallb P (zrange lo n) = true ->
  forall v, lo <= v < lo + Z.of_nat n -> P v = true.
Proof.
  intros H v Hv. rewrite forallb_forall in H. apply H.
  unfold zrange. apply in_map_iff. exists (Z.to_nat (v - lo)). split; [lia|].
  apply in_seq. lia.
Qed.

Lemma append_cons (c : ascii) (s x : string) :
  (String c s ++ x)%string = String c (s ++ x)%string.
Proof. reflexivity. Qed.

Lemma match_alt_app (a : list cls) (s x t r : string) :
  match_alt a s = Some (t, r) -> match_alt a (s ++ x)%string = Some (t, (r ++ x)%string).
Proof.
  revert s t r. induction a as [|p a IH]; intros s t r H.
  - cbn in *. by injection H as <- <-.
  - destruct s as [|c s]; [discriminate|]. rewrite append_cons.
    cbn [match_alt] in *.
    destruct (p c); [|discriminate].
    destruct (match_alt a s) as [[t' r']|] eqn:E; [|discriminate].
    injection H as <- <-. by rewrite (IH _ _ _ E).
Qed.

Lemma match_alt_none_app (a : list cls) (s x : string) :
  match_alt a s = None -> (length a <= String.length s)%nat ->
  match_alt a (s ++ x)%string = None.
Proof.
  revert s. induction a as [|p a IH]; intros s H Hl; [discriminate|].
  destruct s as [|c s]; [cbn in Hl; lia|]. rewrite append_cons.
  cbn [match_alt] in *.
  destruct (p c); [|reflexivity].
  destruct (match_alt a s) as [[t' r']|] eqn:E; [discriminate|].
  rewrite (IH s E); [reflexivity|]. cbn in Hl. lia.
Qed.

Lemma match_alt_text (a : list cls) (s t r : string) :
  match_alt a s = Some (t, r) -> s = (t ++ r)%string.
Proof.
  revert s t r. induction a as [|p a IH]; intros s t r H.
  - cbn in H. by injection H as <- <-.
  - destruct s as [|c s]; [discriminate|]. cbn [match_alt] in H.
    destruct (p c); [|discriminate].
    destruct (match_alt a s) as [[t' r']|] eqn:E; [|discriminate].
    injection H as <- <-. rewrite append_cons. f_equal. by apply IH.
Qed.

Lemma append_empty (s : string) : (s ++ "")%string = s.
Proof.
  induction s as [|c s IH]; [reflexivity|]. exact (f_equal (String c) IH).
Qed.

(** A directive followed by the rest of the format. *)
Lemma match_items_dir (it : item) (fmt : list item) (txt rest : string)
  (gs : list string) (r : string) :
  picks_item it txt = true ->
  match_items fmt rest = Some (gs, r) ->
  match_items (it :: fmt) (txt ++ rest)%string = Some (txt :: gs, r).
Proof.
  destruct it as [alts|c]; [|discriminate]. cbn [picks_item]. intros Hp Hr.
  cbn [match_items].
  induction alts as [|a alts IH]; [discriminate|]. cbn [picks] in Hp.
  destruct (match_alt a txt) as [[t r0]|] eqn:E.
  - apply String.eqb_eq in Hp. subst r0.
    pose proof (match_alt_text _ _ _ _ E) as Ht. rewrite append_empty in Ht. subst t.
    rewrite (match_alt_app _ _ rest _ _ E).
    change ("" ++ rest)%string with rest. by rewrite Hr.
  - apply andb_true_iff in Hp as [Hl Hp]. apply Nat.leb_le in Hl.
    rewrite (match_alt_none_app _ _ rest E Hl). by apply IH.
Qed.

Lemma match_items_lit (c : ascii) (fmt : list item) (rest : string) :
  match_items (Lit c :: fmt) (String c rest) = match_items fmt rest.
Proof. cbn [match_items]. by rewrite Ascii.eqb_refl. Qed.

(** What each directive reads back. *)
Lemma reads_Y v : 1968 <= v <= 2148 -> reads dir_Y pad4 v = true.
Proof.
  intros H. apply (zrange_forall (reads dir_Y pad4) 1968 181); [by vm_compute|lia].
Qed.
Lemma reads_m v : 1 <= v <= 12 -> reads dir_m pad2 v = true.
Proof.
  intros H. apply (zrange_forall (reads dir_m pad2) 1 12); [by vm_compute|lia].
Qed.
Lemma reads_d v : 1 <= v <= 31 -> reads dir_d pad2 v = true.
Proof.
  intros H. apply (zrange_forall (reads dir_d pad2) 1 31); [by vm_compute|lia].
Qed.
Lemma reads_H v : 0 <= v <= 23 -> reads dir_H pad2 v = true.
Proof.
  intros H. apply (zrange_forall (reads dir_H pad2) 0 24); [by vm_compute|lia].
Qed.
Lemma reads_M v : 0 <= v <= 59 -> reads dir_M pad2 v = true.
Proof.
  intros H. apply (zrange_forall (reads dir_M pad2) 0 60); [by vm_compute|lia].
Qed.
Lemma reads_S v : 0 <= v <= 59 -> reads dir_S pad2 v = true.
Proof.
  intros H. apply (zrange_forall (reads dir_S pad2) 0 60); [by vm_compute|lia].
Qed.

Lemma forall_range_spec (P : Z -> bool) (k : nat) (lo : Z) :
  forall_range P lo k = true ->
  forall v, lo <= v < lo + 2 ^ Z.of_nat k -> P v = true.
Proof.
  revert lo. induction k as [|k IH]; intros lo H v Hv.
  - cbn in *. by replace v with lo by lia.
  - cbn [forall_range] in H. apply andb_true_iff in H as [H1 H2].
    rewrite Nat2Z.inj_succ, Z.pow_succ_r in Hv by lia.
    destruct (Z_lt_le_dec v (lo + 2 ^ Z.of_nat k)).
    + apply (IH lo H1). lia.
    + apply (IH _ H2). lia.
Qed.

Lemma civil_ok_days z :
  day_lo <= z <= day_hi -> civil_ok 1968 2148 z = true.
Proof.
  intros H.
  apply (forall_range_spec (civil_ok 1968 2148) 16 day_lo); [by vm_compute|].
  unfold day_hi in H. change (Z.of_nat 16) with 16. lia.
Qed.

Lemma month_days_within y m :
  1969 <= y <= 2068 -> 1 <= m <= 12 ->
  day_lo + 1 <= days_from_civil y m 1 /\ days_from_civil y m 31 <= 36192.
Proof.
  intros Hy Hm.
  pose proof (zrange_forall (month_within (day_lo + 1) 36192) (1969 * 12) 1200
                ltac:(by vm_compute) (y * 12 + (m - 1)) ltac:(lia)) as H.
  unfold month_within in H.
  replace ((y * 12 + (m - 1)) / 12) with y in H
    by (apply Z.div_unique with (r := m - 1); lia).
  replace ((y * 12 + (m - 1)) mod 12) with (m - 1) in H
    by (apply Z.mod_unique with (q := y); lia).
  replace (m - 1 + 1) with m in H by lia.
  apply andb_true_iff in H as [H1 H2]. lia.
Qed.

Lemma days_in_month_le (y m : Z) : days_in_month y m <= 31.
Proof.
  unfold days_in_month.
  destruct (m =? 2); [destruct (is_leap y); lia|].
  destruct ((m =? 4) || (m =? 6) || (m =? 9) || (m =? 11)); lia.
Qed.

(** The time of day splits into hours, minutes and seconds. *)
Lemma time_of_day (s : Z) :
  0 <= s < 86400 ->
  0 <= s / 3600 <= 23 /\ 0 <= s mod 3600 / 60 <= 59 /\ 0 <= s mod 60 <= 59
  /\ 3600 * (s / 3600) + 60 * (s mod 3600 / 60) + s mod 60 = s.
Proof.
  intros Hs.
  pose proof (Z.div_mod s 3600 ltac:(lia)).
  pose proof (Z.div_mod (s mod 3600) 60 ltac:(lia)).
  pose proof (Z.mod_pos_bound s 3600 ltac:(lia)).
  pose proof (Z.mod_pos_bound (s mod 3600) 60 ltac:(lia)).
  assert (s mod 3600 mod 60 = s mod 60).
  { apply Z.mod_mod_divide. exists 60. lia. }
  assert (0 <= s / 3600 <= 23).
  { split; [apply Z.div_pos; lia|].
    assert (s / 3600 < 24) by (apply Z.div_lt_upper_bound; lia). lia. }
  assert (0 <= s mod 3600 / 60 <= 59).
  { split; [apply Z.div_pos; lia|].
    assert (s mod 3600 / 60 < 60) by (apply Z.div_lt_upper_bound; lia). lia. }
  repeat split; lia.
Qed.

(** Reading the text of a date and a time of day in range. *)
Lemma strptime_influx_fields (y m d hh mi ss : Z) :
  1968 <= y <= 2148 -> 1 <= m <= 12 -> 1 <= d <= 31 ->
  0 <= hh <= 23 -> 0 <= mi <= 59 -> 0 <= ss <= 59 ->
  strptime_influx
    (pad4 y ++ "-" ++ pad2 m ++ "-" ++ pad2 d ++ "T"
     ++ pad2 hh ++ ":" ++ pad2 mi ++ ":" ++ pad2 ss ++ "Z")%string
  = datetime y m d hh mi ss.
Proof.
  intros Hy Hm Hd Hh Hmi Hs.
  pose proof (reads_Y y Hy) as [RY NY]%andb_true_iff.
  pose proof (reads_m m Hm) as [Rm Nm]%andb_true_iff.
  pose proof (reads_d d Hd) as [Rd Nd]%andb_true_iff.
  pose proof (reads_H hh Hh) as [RH NH]%andb_true_iff.
  pose proof (reads_M mi Hmi) as [RM NM]%andb_true_iff.
  pose proof (reads_S ss Hs) as [RS NS]%andb_true_iff.
  clear Hy Hm Hd Hh Hmi Hs.
  apply Z.eqb_eq in NY, Nm, Nd, NH, NM, NS.
  unfold strptime_influx, strptime_groups, INFLUX_DT_FMT.
  rewrite (match_items_dir _ _ _ _ [pad2 m; pad2 d; pad2 hh; pad2 mi; pad2 ss] "" RY).
  - cbn [mbind res_bind]. by rewrite NY, Nm, Nd, NH, NM, NS.
  - rewrite append_cons, match_items_lit. change ("" ++ ?x)%string with x.
    rewrite (match_items_dir _ _ _ _ [pad2 d; pad2 hh; pad2 mi; pad2 ss] "" Rm);
      [reflexivity|].
    rewrite append_cons, match_items_lit. change ("" ++ ?x)%string with x.
    rewrite (match_items_dir _ _ _ _ [pad2 hh; pad2 mi; pad2 ss] "" Rd); [reflexivity|].
    rewrite append_cons, match_items_lit. change ("" ++ ?x)%string with x.
    rewrite (match_items_dir _ _ _ _ [pad2 mi; pad2 ss] "" RH); [reflexivity|].
    rewrite append_cons, match_items_lit. change ("" ++ ?x)%string with x.
    rewrite (match_items_dir _ _ _ _ [pad2 ss] "" RM); [reflexivity|].
    rewrite append_cons, match_items_lit. change ("" ++ ?x)%string with x.
    rewrite (match_items_dir _ _ _ _ [] "" RS); [reflexivity|].
    apply match_items_lit.
Qed.

(** The text written for an instant reads back as the instant. *)
Lemma influx_round_trip (t : Z) :
  day_lo * 86400 <= t < (day_hi + 1) * 86400 ->
  influx_instant (strftime_influx t) = OK t.
Proof.
  intros Ht.
  assert (Hz : day_lo <= t / 86400 <= day_hi).
  { split; [apply Z.div_le_lower_bound; lia|].
    assert (t / 86400 < day_hi + 1) by (apply Z.div_lt_upper_bound; lia). lia. }
  pose proof (civil_ok_days _ Hz) as Hc.
  pose proof (Z.mod_pos_bound t 86400 ltac:(lia)) as Hs.
  pose proof (Z.div_mod t 86400 ltac:(lia)) as Ht'.
  destruct (time_of_day _ Hs) as (Hh & Hm & Hsec & Hsum).
  unfold influx_instant, strftime_influx, utc_fields.
  unfold civil_ok in Hc.
  destruct (civil_from_days (t / 86400)) as [[y m] d].
  set (s := t mod 86400) in *.
  apply andb_true_iff in Hc as [Hc H7]. apply andb_true_iff in Hc as [Hc H6].
  apply andb_true_iff in Hc as [Hc H5]. apply andb_true_iff in Hc as [Hc H4].
  apply andb_true_iff in Hc as [Hc H3]. apply andb_true_iff in Hc as [H1 H2].
  pose proof (days_in_month_le y m) as Hdim.
  apply Z.eqb_eq in H7.
  cbn [year month day hour minute second].
  rewrite strptime_influx_fields by lia.
  unfold datetime. rewrite H3, H4, H5, H6.
  replace (1 <=? y) with true by (symmetry; apply Z.leb_le; lia).
  replace (y <=? 9999) with true by (symmetry; apply Z.leb_le; lia).
  replace (0 <=? s / 3600) with true by (symmetry; apply Z.leb_le; lia).
  replace (s / 3600 <=? 23) with true by (symmetry; apply Z.leb_le; lia).
  replace (0 <=? s mod 3600 / 60) with true by (symmetry; apply Z.leb_le; lia).
  replace (s mod 3600 / 60 <=? 59) with true by (symmetry; apply Z.leb_le; lia).
  replace (0 <=? s mod 60) with true by (symmetry; apply Z.leb_le; lia).
  replace (s mod 60 <=? 59) with true by (symmetry; apply Z.leb_le; lia).
  cbn [andb mbind res_bind]. f_equal. unfold wall_seconds.
  cbn [year month day hour minute second]. rewrite H7. lia.
Qed.

End TimeTextFacts.

(** ** Digit strings *)

Module Digits.

Import DecimalPos.Unsigned.










End Digits.




Module DecoderRange.

Import PyTime TimeText TimeTextFacts.

Lemma dig_cases (c : ascii) :
  dig c = true ->
  In c ["0"; "1"; "2"; "3"; "4"; "5"; "6"; "7"; "8"; "9"]%char.
Proof.
  destruct c as [[|] [|] [|] [|] [|] [|] [|] [|]]; intros H;
    try discriminate H; cbn; tauto.
Qed.

Lemma two_digits_value (a b : ascii) :
  dig a = true -> dig b = true -> 0 <= num (String a (String b "")) <= 99.
Proof.
  intros Ha Hb. apply dig_cases in Ha, Hb. cbn [In] in Ha, Hb.
  repeat (destruct Ha as [<-|Ha]; [repeat (destruct Hb as [<-|Hb]; [by vm_compute|]); done|]).
  done.
Qed.

Lemma century_range (yy : Z) : 0 <= yy <= 99 -> 1969 <= century yy <= 2068.
Proof. intros H. unfold century. destruct (Z.leb_spec yy 68); lia. Qed.

Lemma datetime_ok (y m d hh mi ss : Z) (n : naive) :
  datetime y m d hh mi ss = OK n ->
  n = mk_naive y m d hh mi ss
  /\ 1 <= m <= 12 /\ 1 <= d <= days_in_month y m
  /\ 0 <= hh <= 23 /\ 0 <= mi <= 59 /\ 0 <= ss <= 59.
Proof.
  unfold datetime.
  destruct (_ && _) eqn:E; [|discriminate]. intros [= <-].
  repeat (apply andb_true_iff in E as [E ?]). split; [reflexivity|]. lia.
Qed.

Lemma match_items_single (a : list cls) (fmt : list item) (s : string)
  (gs : list string) (r : string) :
  match_items (Dir [a] :: fmt) s = Some (gs, r) ->
  exists t r0 gs',
    match_alt a s = Some (t, r0) /\ match_items fmt r0 = Some (gs', r) /\ gs = t :: gs'.
Proof.
  change (match_items (Dir [a] :: fmt) s)
    with (match match_alt a s with
          | Some (t, r0) =>
              match match_items fmt r0 with
              | Some (gs, r') => Some (t :: gs, r')
              | None => None
              end
          | None => None
          end).
  destruct (match_alt a s) as [[t r0]|]; [|discriminate].
  destruct (match_items fmt r0) as [[gs' r']|] eqn:E; [|discriminate].
  intros [= <- <-]. by exists t, r0, gs'.
Qed.

(** The year [strptime] reads from two digits. *)
Lemma strptime_drm4_fields (s : string) (n : naive) :
  strptime_drm4 s = OK n ->
  1969 <= year n <= 2068
  /\ 1 <= month n <= 12 /\ 1 <= day n <= days_in_month (year n) (month n)
  /\ 0 <= hour n <= 23 /\ 0 <= minute n <= 59 /\ 0 <= second n <= 59.
Proof.
  unfold strptime_drm4, strptime_groups, DRM4_DT_FMT, dir_y.
  destruct (match_items _ s) as [[gs r]|] eqn:E; [|discriminate].
  destruct r; [|discriminate]. cbn [mbind res_bind].
  apply match_items_single in E as (t & r0 & gs' & Ea & _ & ->).
  assert (Ht : 0 <= num t <= 99).
  { destruct s as [|a [|b s']]; cbn [match_alt] in Ea; try discriminate;
      destruct (dig a) eqn:Ha; try discriminate.
    destruct (dig b) eqn:Hb; try discriminate.
    injection Ea as <- _. by apply two_digits_value. }
  destruct gs' as [|gm [|gd [|gH [|gM [|gS [|]]]]]]; try discriminate.
  intros H. apply datetime_ok in H as (-> & H). cbn [year month day hour minute second].
  split; [by apply century_range|exact H].
Qed.

Lemma days_from_civil_day (y m d : Z) :
  days_from_civil y m d = days_from_civil y m 1 + (d - 1).
Proof. unfold days_from_civil. lia. Qed.

(** The instants the decoder can produce. *)
Lemma localize_range (tz : tzinfo) (n : naive) (dt : Z) :
  1969 <= year n <= 2068 ->
  1 <= month n <= 12 -> 1 <= day n <= days_in_month (year n) (month n) ->
  0 <= hour n <= 23 -> 0 <= minute n <= 59 -> 0 <= second n <= 59 ->
  localize_to_utc tz n = OK dt ->
  day_lo * 86400 <= dt < (day_hi + 1) * 86400.
Proof.
  intros Hy Hm Hd Hh Hmi Hs. unfold localize_to_utc.
  destruct (_ && _) eqn:E; [|discriminate]. intros [= <-].
  apply andb_true_iff in E as [E1 E2].
  destruct (month_days_within _ _ Hy Hm) as [Hlo Hhi].
  pose proof (days_in_month_le (year n) (month n)).
  unfold wall_seconds.
  rewrite (days_from_civil_day _ _ (day n)).
  rewrite (days_from_civil_day _ _ 31) in Hhi.
  unfold day_hi, day_lo in *. lia.
Qed.

End DecoderRange.

Section RoundTrip.

Variable TZ_DRM4 : PyTime.tzinfo.

(** C9.  An instant [parse_dt_to_utc] yields, written with
    [strftime] in the format of the sink and read back with [strptime]
    in that format as a UTC reading, is the same instant. *)
Theorem gas_time_text_round_trips (value : spec_float) (dt : Z) :
  parse_dt_to_utc TZ_DRM4 value = OK dt ->
  PyTime.influx_instant (PyTime.strftime_influx dt) = OK dt.
Proof.
  unfold parse_dt_to_utc. intros H.
  destruct (PyFloat.to_int value) as [k|]; [|discriminate]. cbn [mbind res_bind] in H.
  destruct (PyTime.strptime_drm4 (PyStr.str_of_int k)) as [n|] eqn:En; [|discriminate].
  cbn [mbind res_bind] in H.
  destruct (DecoderRange.strptime_drm4_fields _ _ En) as (Hy & Hm & Hd & Hh & Hmi & Hs).
  apply TimeTextFacts.influx_round_trip.
  by apply (DecoderRange.localize_range TZ_DRM4 n).
Qed.

End RoundTrip.

(** * The theorems at work on concrete telegrams *)


Lemma checksum_digits_witness :
  exists st',
    parse_telegram PyTime.Europe_Amsterdam
      (["/ISK5"; "1-0:21.7.0(00.424*kW)"] ++ String "!" "FFFF" :: ["/next"])%list None None
    = (Returned (Some (<["power_delivered_w" := VFloat (PyFloat.of_int 424)]> ∅)), st', ["/next"])
    /\ stdout st' =
         ([] ++ [EndOfTelegram
                   (Crc.hex (Crc.drm4_crc (PyStr.join DRM4_LINE_SEP (t_content st'))))
                   (PyStr.strip (String "!" "FFFF"))])%list.
Proof.
  refine (proj2 (checksum_digits_do_not_gate PyTime.Europe_Amsterdam
                   ["/ISK5"; "1-0:21.7.0(00.424*kW)"] ["/next"] "FFFF" "0000" None None)
            (mk_state ["/ISK5"; "1-0:21.7.0(00.424*kW)"]
               (<["power_delivered_w" := VFloat (PyFloat.of_int 424)]> ∅) false []) _ _);
    [vm_compute; reflexivity | reflexivity].
Defined.


Lemma checksum_covers_witness :
  exists read raw out,
    example_telegram = (read ++ raw :: ["/next"])%list
    /\ PyStr.startswith (PyStr.strip raw) "!" = true
    /\ t_content (parse_telegram PyTime.Europe_Amsterdam example_telegram None None).1.2
       = ((PyStr.strip <$> read) ++ [PyStr.strip raw; "!"])%list
    /\ stdout (parse_telegram PyTime.Europe_Amsterdam example_telegram None None).1.2
       = (out ++ [EndOfTelegram
                    (Crc.hex (Crc.drm4_crc
                       (PyStr.join DRM4_LINE_SEP
                          ((PyStr.strip <$> read) ++ [PyStr.strip raw; "!"])%list)))
                    (PyStr.strip raw)])%list.
Proof.
  exact (checksum_covers_every_line_read PyTime.Europe_Amsterdam example_telegram None None
           (returned_record (parse_telegram PyTime.Europe_Amsterdam example_telegram None None))
           (parse_telegram PyTime.Europe_Amsterdam example_telegram None None).1.2
           ["/next"] ltac:(vm_compute; reflexivity)).
Defined.

(** C4, the claim as stated, fails: the buffer of the example holds the
    line of noise read before the start marker and the blank line, which
    the buffer the specification describes leaves out. *)
Lemma buffer_holds_blank_and_early_lines :
  let st := (parse_telegram PyTime.Europe_Amsterdam
               ["noise"; "/ISK5"; ""; "1-0:21.7.0(00.424*kW)"; "!ABCD"] None None).1.2 in
  t_content st = ["noise"; "/ISK5"; ""; "1-0:21.7.0(00.424*kW)"; "!ABCD"; "!"]
  /\ spec_buffer ["noise"; "/ISK5"; ""; "1-0:21.7.0(00.424*kW)"; "!ABCD"]
     = ["/ISK5"; "1-0:21.7.0(00.424*kW)"; "!ABCD"; "!"]
  /\ t_content st <> spec_buffer ["noise"; "/ISK5"; ""; "1-0:21.7.0(00.424*kW)"; "!ABCD"].
Proof.
  repeat split; try (vm_compute; reflexivity). vm_compute. discriminate.
Qed.


Lemma power_line_witness :
  loop_body PyTime.Europe_Amsterdam None None "1-0:21.7.0(00.424*kW)" (started init_state)
  = Continue (setitem "power_delivered_w" (VFloat (PyFloat.of_int 424))
                (append_content "1-0:21.7.0(00.424*kW)" (started init_state)))
  /\ decode_line "1-0:21.7.0(00.424*kW)"
     = Decoded POWER_DEL_KW (PyFloat.of_ratio 424 1000) PyFloat.nan
  /\ PyFloat.mul (PyFloat.of_int 1000) (PyFloat.of_ratio 424 1000) = PyFloat.of_int 424
  /\ PyFloat.of_int 424 = S754_finite false (53 * 2 ^ 47) (-44).
Proof.
  exact (power_line_decodes PyTime.Europe_Amsterdam None None (started init_state) eq_refl).
Defined.



Lemma gas_time_round_trip_witness :
  PyTime.influx_instant (PyTime.strftime_influx gas_example_instant) = OK gas_example_instant.
Proof.
  exact (gas_time_text_round_trips PyTime.Europe_Amsterdam (PyFloat.of_int 221226120000)
           gas_example_instant ltac:(vm_compute; reflexivity)).
Defined.

